(** * g-chat backend: usage throttle, thread store and streaming chat

    Shallow embedding of
    - [app/utils/rate_limiter.py]   (global [usage_tracking] dict and the
      functions reading and mutating it),
    - [app/threads/thread_service.py] ([add_messages_to_thread],
      [get_thread_messages_optimized]),
    - [app/chat/chat_service.py]    ([process_chat_request],
      [stream_response]),
    - [app/api/routes/chat.py]      ([chat_with_thread]).

    Python timestamps ([time.time()], [datetime.utcnow()]) are modelled as
    rationals (seconds); the Python process-wide dict [usage_tracking] is an
    explicit state threaded through the calls.  The tokenizer
    [count_tokens], the JSON encoder and the configured limits are
    parameters of the development. *)

From Stdlib Require Import ZArith QArith Qround Qminmax String List.
From stdpp Require Import base gmap.
Import ListNotations.

Open Scope Z_scope.

(** Python exceptions that matter here ([app/utils/errors.py]). *)
Inductive py_exc :=
| RateLimitError (limit_type : string) (limit : Z)
| OtherExc (msg : string).

(** [APIError.status_code] of an exception. *)
Definition exc_status_code (e : py_exc) : Z :=
  match e with
  | RateLimitError _ _ => 429
  | OtherExc _ => 500
  end.

(** A call that returns a value or raises. *)
Inductive outcome (A : Type) :=
| Ok (a : A)
| Raised (e : py_exc).
Arguments Ok {A} a.
Arguments Raised {A} e.

(** Python [int(x)] on a float: truncation toward zero. *)
Definition py_int (q : Q) : Z := Z.quot (Qnum q) (Zpos (Qden q)).

(** Python [max(0, x)] on floats. *)
Definition py_max0 (q : Q) : Q := if Qle_bool q 0 then 0%Q else q.

(** ** Usage throttle ([app/utils/rate_limiter.py]) *)
Module RateLimiter.

(** The global dict [usage_tracking]. *)
Record usage := mk_usage {
  last_reset : Q;
  tokens_used : Z;
  requests_used : Z
}.

Section Limiter.
Variable REQUESTS_PER_MINUTE : Z.
Variable TOKENS_PER_MINUTE : Z.

(** [check_and_reset_counters], with [current_time = time.time()] given as
    [now]. *)
Definition check_and_reset_counters (now : Q) (s : usage) : usage :=
  if negb (Qle_bool (now - last_reset s) 60) then
    {| last_reset := now; tokens_used := 0; requests_used := 0 |}
  else s.

(** [check_token_rate_limit(token_count)]: the boolean it returns and the
    new global state. *)
Definition check_token_rate_limit (now : Q) (token_count : Z) (s : usage)
  : bool * usage :=
  let s1 := check_and_reset_counters now s in
  if TOKENS_PER_MINUTE <? tokens_used s1 + token_count then (false, s1)
  else (true, {| last_reset := last_reset s1;
                 tokens_used := tokens_used s1 + token_count;
                 requests_used := requests_used s1 |}).

(** [track_request()]: returns [None] or raises [RateLimitError]. *)
Definition track_request (now : Q) (s : usage) : outcome unit * usage :=
  let s1 := check_and_reset_counters now s in
  if REQUESTS_PER_MINUTE <=? requests_used s1 then
    (Raised (RateLimitError "Request" REQUESTS_PER_MINUTE), s1)
  else (Ok tt, {| last_reset := last_reset s1;
                  tokens_used := tokens_used s1;
                  requests_used := requests_used s1 + 1 |}).

(** One budget of the dict returned by [get_rate_limit_status]. *)
Record budget_status := mk_budget {
  limit : Z;
  used : Z;
  remaining : Z;
  reset_after_seconds : Z
}.

Record rate_limit_status := mk_status {
  st_requests : budget_status;
  st_tokens : budget_status
}.

(** [get_rate_limit_status()]: the reset check reads the clock at [now1],
    the later [time.time()] of [time_until_reset] reads it at [now2].  The
    state is returned too since the reset check may replace it. *)
Definition get_rate_limit_status (now1 now2 : Q) (s : usage)
  : rate_limit_status * usage :=
  let s1 := check_and_reset_counters now1 s in
  let time_until_reset := py_max0 (60 - (now2 - last_reset s1)) in
  let remaining_requests := Z.max 0 (REQUESTS_PER_MINUTE - requests_used s1) in
  ({| st_requests := {| limit := REQUESTS_PER_MINUTE;
                        used := requests_used s1;
                        remaining := remaining_requests;
                        reset_after_seconds := py_int time_until_reset |};
      st_tokens := {| limit := TOKENS_PER_MINUTE;
                      used := tokens_used s1;
                      remaining := TOKENS_PER_MINUTE - tokens_used s1;
                      reset_after_seconds := py_int time_until_reset |} |},
   s1).

(** The three entry points, for sequences of calls. *)
Inductive op :=
| OpRequest
| OpTokens (n : Z)
| OpStatus (now2 : Q).

Definition step (now : Q) (o : op) (s : usage) : usage :=
  match o with
  | OpRequest => snd (track_request now s)
  | OpTokens n => snd (check_token_rate_limit now n s)
  | OpStatus now2 => snd (get_rate_limit_status now now2 s)
  end.

Fixpoint run (calls : list (Q * op)) (s : usage) : usage :=
  match calls with
  | [] => s
  | (now, o) :: rest => run rest (step now o s)
  end.

End Limiter.
End RateLimiter.

(** ** Thread store ([app/threads/thread_service.py], [app/crud/chat.py]) *)
Module Store.

(** A [threads] row. *)
Record thread_row := mk_thread {
  th_user_id : Z;
  th_title : string;
  th_updated_at : Q
}.

(** A [conversations] row; rows are kept in insertion ([created_at])
    order. *)
Record conversation := mk_conversation {
  cv_thread_id : Z;
  cv_role : string;
  cv_content : string;
  cv_model : option string;
  cv_token_count : Z
}.

Record db := mk_db {
  threads : gmap Z thread_row;
  conversations : list conversation
}.

(** The message dicts passed to [add_messages_to_thread]: ["content"],
    and the optional keys read with [.get]: ["model"], ["token_count"]. *)
Record message := mk_message {
  msg_content : string;
  msg_model : option string;
  msg_token_count : option Z
}.

(** One history entry [{"role": row.role, "parts": [{"text": row.content}]}]. *)
Record hist_entry := mk_hist {
  h_role : string;
  h_parts : list string
}.

Section Store.
Variable count_tokens : string -> Z.

(** [message.get("token_count") or count_tokens(message["content"])]. *)
Definition token_count_or (m : message) : Z :=
  match msg_token_count m with
  | Some n => if Z.eqb n 0 then count_tokens (msg_content m) else n
  | None => count_tokens (msg_content m)
  end.

(** [chat_crud.create_conversation]: one committed row. *)
Definition create_conversation (d : db) (c : conversation) : db :=
  {| threads := threads d; conversations := conversations d ++ [c] |}.

(** [get_thread_messages_optimized(db, thread_id)]. *)
Definition get_thread_messages_optimized (d : db) (thread_id : Z)
  : list hist_entry :=
  map (fun c => {| h_role := cv_role c; h_parts := [cv_content c] |})
      (List.filter (fun c => Z.eqb (cv_thread_id c) thread_id) (conversations d)).

(** [add_messages_to_thread(db, thread_id, user_message,
    assistant_response)], with [datetime.utcnow()] given as [now]. *)
Definition add_messages_to_thread (now : Q) (d : db) (thread_id : Z)
    (user_message assistant_response : option message) : bool * db :=
  match threads d !! thread_id with
  | None => (false, d)
  | Some th =>
      let d1 :=
        match user_message with
        | Some m =>
            create_conversation d
              {| cv_thread_id := thread_id; cv_role := "user";
                 cv_content := msg_content m; cv_model := None;
                 cv_token_count := token_count_or m |}
        | None => d
        end in
      let d2 :=
        match assistant_response with
        | Some m =>
            create_conversation d1
              {| cv_thread_id := thread_id; cv_role := "model";
                 cv_content := msg_content m; cv_model := msg_model m;
                 cv_token_count := token_count_or m |}
        | None => d1
        end in
      (true, {| threads := <[thread_id := {| th_user_id := th_user_id th;
                                            th_title := th_title th;
                                            th_updated_at := now |}]> (threads d2);
                conversations := conversations d2 |})
  end.

End Store.
End Store.

(** ** Streaming chat ([app/chat/chat_service.py]) *)
Module Chat.
Import RateLimiter Store.

(** What iterating [chat.send_message_stream(question)] produces: a chunk
    ([chunk.text], [None] when the attribute is missing or [None]) read at
    clock time [now], the end of the iteration at clock time [now], or an
    exception, raised by [send_message_stream] itself or by the iterator. *)
Inductive chunk_stream :=
| SEnd (now : Q)
| SRaise (msg : string)
| SChunk (now : Q) (text : option string) (rest : chunk_stream).

(** The server-sent events the generator yields: [data: {json}\n\n] with
    the payload [{"content": ...}], or the sentinel [data: [DONE]\n\n]. *)
Inductive sse_event :=
| SseContent (content : string)
| SseDone.

(** Which exit of [stream_response] the generator took: the end of the
    [for] loop, the [return] after the truncation notice, or the
    [except] clause. *)
Inductive stream_exit :=
| ExitCompleted
| ExitTruncated
| ExitFailed.

Record stream_result := mk_result {
  events : list sse_event;
  usage_after : usage;
  db_after : db;
  exit : stream_exit
}.

(** Warning prefix [⚠️ ] (UTF-8 bytes) used by the in-band messages. *)
Definition warning : string := "⚠️ ".

Definition truncation_notice : string :=
  String.append warning "Token rate limit exceeded. Response truncated.".

(** [f'⚠️ Error: {str(e)}']. *)
Definition error_text (msg : string) : string :=
  String.append warning (String.append "Error: " msg).

Definition newline : string := String (Ascii.ascii_of_nat 10) EmptyString.
Definition dquote : string := String (Ascii.ascii_of_nat 34) EmptyString.

Section Chat.
Variable TOKENS_PER_MINUTE : Z.
Variable count_tokens : string -> Z.
(** [json.dumps] of a string: the quoted, escaped JSON literal. *)
Variable json_string : string -> string.

(** The bytes put on the wire for each yielded event. *)
Definition render (e : sse_event) : string :=
  match e with
  | SseContent s =>
      String.append "data: {"
        (String.append dquote
          (String.append "content"
            (String.append dquote
              (String.append ": "
                (String.append (json_string s)
                  (String.append "}" (String.append newline newline)))))))
  | SseDone =>
      String.append "data: [DONE]" (String.append newline newline)
  end.

(** The body of [stream_response(chat, question, thread_id, db, model)]
    from the [for] loop on, with [accumulated_text] as [acc] and the global
    [usage_tracking] as [us]. *)
Fixpoint stream_loop (thread_id : Z) (model : string) (u : chunk_stream)
    (acc : string) (us : usage) (d : db) : stream_result :=
  match u with
  | SRaise msg =>
      {| events := [SseContent (error_text msg); SseDone];
         usage_after := us; db_after := d; exit := ExitFailed |}
  | SEnd now =>
      let assistant_message :=
        {| msg_content := acc; msg_model := Some model;
           msg_token_count := Some (count_tokens acc) |} in
      let d' := snd (add_messages_to_thread count_tokens now d thread_id
                       None (Some assistant_message)) in
      {| events := [SseDone]; usage_after := us; db_after := d';
         exit := ExitCompleted |}
  | SChunk now text rest =>
      match text with
      | None => stream_loop thread_id model rest acc us d
      | Some new_text =>
          if String.eqb new_text "" then stream_loop thread_id model rest acc us d
          else
            let acc' := String.append acc new_text in
            let chunk_tokens := count_tokens new_text in
            let '(ok, us') :=
              check_token_rate_limit TOKENS_PER_MINUTE now chunk_tokens us in
            if ok then
              let r := stream_loop thread_id model rest acc' us' d in
              {| events := SseContent new_text :: events r;
                 usage_after := usage_after r; db_after := db_after r;
                 exit := exit r |}
            else
              {| events := [SseContent truncation_notice; SseDone];
                 usage_after := us'; db_after := d; exit := ExitTruncated |}
      end
  end.

(** [stream_response]: [accumulated_text = ""] before the loop. *)
Definition stream_response (thread_id : Z) (model : string) (u : chunk_stream)
    (us : usage) (d : db) : stream_result :=
  stream_loop thread_id model u "" us d.

End Chat.

(** A stream whose first chunks are [pre]. *)
Fixpoint prepend (pre : list (Q * option string)) (u : chunk_stream)
  : chunk_stream :=
  match pre with
  | [] => u
  | (now, text) :: p => SChunk now text (prepend p u)
  end.

(** The fragments of [pre] forwarded by the loop (non-empty texts, all
    admitted by the token check) and the usage state after them, or
    [None] if a check of [pre] fails. *)
Fixpoint admitted_prefix (T : Z) (count_tokens : string -> Z)
    (pre : list (Q * option string)) (us : usage)
  : option (list string * usage) :=
  match pre with
  | [] => Some ([], us)
  | (now, None) :: p => admitted_prefix T count_tokens p us
  | (now, Some t) :: p =>
      if String.eqb t "" then admitted_prefix T count_tokens p us
      else
        let '(ok, us') := check_token_rate_limit T now (count_tokens t) us in
        if ok then
          match admitted_prefix T count_tokens p us' with
          | Some (f, us1) => Some (t :: f, us1)
          | None => None
          end
        else None
  end.

(** Concatenation of fragments in arrival order. *)
Definition concat_fragments (fs : list string) : string :=
  fold_right String.append EmptyString fs.

End Chat.

(** ** The chat route ([app/api/routes/chat.py]) *)
Module Route.
Import Store.

(** What the route hands back to FastAPI. [StreamingResponse] carries the
    chat session created by [client.chats.create(model, history)] and the
    thread the not yet started [stream_response] generator will write to;
    the generator only calls [send_message_stream] once FastAPI iterates
    it, after the route has returned. *)
Inductive chat_response :=
| StreamingResponse (model : string) (history : list hist_entry)
    (thread_id : Z)
| ErrorDict (role content : string)
| HTTPException (status_code : Z) (detail : string).

Section Route.
Variable count_tokens : string -> Z.

(** [process_chat_request(question, history, model, thread_id, db)];
    [chat_setup] is the outcome of [genai.Client(...)] and
    [client.chats.create(...)]. *)
Definition process_chat_request (history : list hist_entry) (model : string)
    (thread_id : Z) (chat_setup : outcome unit) : chat_response :=
  match chat_setup with
  | Ok _ => StreamingResponse model history thread_id
  | Raised e =>
      let msg := match e with
                 | OtherExc m => m
                 | RateLimitError t _ => t
                 end in
      ErrorDict "model"
        (String.append "⚠️ Error processing request: " msg)
  end.

(** [chat_with_thread(request, chat_request, thread_id, db)] with
    [datetime.utcnow()] as [now].  [history_query] is the outcome of
    [get_thread_messages_optimized(db, thread_id)] on the session: its
    value, or the exception the query raised.  The route has no
    [current_user] dependency. *)
Definition chat_with_thread (now : Q) (d : db) (thread_id : Z)
    (model question : string) (history_query : outcome (list hist_entry))
    (chat_setup : outcome unit) : chat_response * db :=
  let existing_conversation_history :=
    match history_query with
    | Ok h => h
    | Raised _ => []
    end in
  let complete_messages := existing_conversation_history in
  let new_user_message :=
    {| msg_content := question; msg_model := None;
       msg_token_count := Some (count_tokens question) |} in
  let d1 := snd (add_messages_to_thread count_tokens now d thread_id
                   (Some new_user_message) None) in
  (process_chat_request complete_messages model thread_id chat_setup, d1).

(** The history query when the session does not fail. *)
Definition history_of (d : db) (thread_id : Z) : outcome (list hist_entry) :=
  Ok (get_thread_messages_optimized d thread_id).

End Route.
End Route.

(** ** Remaining thread services and the thread routes
    ([app/threads/thread_service.py], [app/crud/chat.py],
    [app/api/routes/threads.py], [app/chat/chat_service.py]) *)
Module Service.
Import RateLimiter Store.

(** Python [str(n)] of an integer, decimal. *)
Fixpoint digits_aux (fuel : nat) (n : Z) (acc : string) : string :=
  match fuel with
  | O => acc
  | S f =>
      let acc' := String (Ascii.ascii_of_nat (48 + Z.to_nat (n mod 10))) acc in
      if n <? 10 then acc' else digits_aux f (n / 10) acc'
  end.

Definition py_str_int (n : Z) : string :=
  if n <? 0
  then String.append "-" (digits_aux (S (Z.to_nat (Z.log2 (- n)))) (- n) EmptyString)
  else digits_aux (S (Z.to_nat (Z.log2 n))) n EmptyString.

(** [str(e)]: an [APIError] prints its [message]. *)
Definition exc_str (e : py_exc) : string :=
  match e with
  | RateLimitError t l =>
      String.append t (String.append " rate limit exceeded: "
        (String.append (py_str_int l) " per minute"))
  | OtherExc m => m
  end.

(** [get_thread(db, thread_id)]: the row or [None]. *)
Definition get_thread (d : db) (thread_id : Z) : option thread_row :=
  threads d !! thread_id.

(** The rows of one thread, oldest first
    ([filter(Conversation.thread_id == thread_id).order_by(created_at)]). *)
Definition thread_rows (d : db) (thread_id : Z) : list conversation :=
  List.filter (fun c => Z.eqb (cv_thread_id c) thread_id) (conversations d).

(** [chat_crud.get_thread_conversations(db, thread_id, skip, limit)]. *)
Definition get_thread_conversations (d : db) (thread_id : Z) (skip limit : nat)
  : list conversation :=
  firstn limit (skipn skip (thread_rows d thread_id)).

(** [get_thread_messages(db, thread_id)]: the defaults [skip=0],
    [limit=100]. *)
Definition get_thread_messages (d : db) (thread_id : Z) : list conversation :=
  get_thread_conversations d thread_id 0 100.

(** [get_thread_token_count] and [get_total_tokens_from_db]:
    [SUM(token_count)] over the thread's rows, [or 0] for an empty sum
    (every row the service writes has an integer [token_count]). *)
Definition get_thread_token_count (d : db) (thread_id : Z) : Z :=
  fold_right Z.add 0 (map cv_token_count (thread_rows d thread_id)).

(** [chat_crud.delete_thread]: [db.delete(db_thread)]; the
    [cascade="all, delete-orphan"] relationship of [Thread] deletes the
    thread's conversations with it. *)
Definition delete_thread (d : db) (thread_id : Z) : bool * db :=
  match threads d !! thread_id with
  | None => (false, d)
  | Some _ =>
      (true, {| threads := delete thread_id (threads d);
                conversations :=
                  List.filter (fun c => negb (Z.eqb (cv_thread_id c) thread_id))
                              (conversations d) |})
  end.

(** [chat_crud.get_user_threads(db, user_id)]: the rows with
    [Thread.user_id == user_id], in the order the query returns them. *)
Definition get_user_threads (d : db) (user_id : Z) : list (Z * thread_row) :=
  List.filter (fun p => Z.eqb (th_user_id (snd p)) user_id)
              (map_to_list (threads d)).

(** The dict built by [get_thread_preview]; [last_message_timestamp] is
    not modelled since rows carry no [created_at] here. *)
Record thread_preview := mk_preview {
  pv_id : Z;
  pv_title : string;
  pv_last_message_content : option string;
  pv_updated_at : Q
}.

Fixpoint last_opt {A : Type} (l : list A) : option A :=
  match l with
  | [] => None
  | [x] => Some x
  | _ :: l' => last_opt l'
  end.

(** [order_by(created_at.desc()).first()] of the thread's rows. *)
Definition last_conversation (d : db) (thread_id : Z) : option conversation :=
  last_opt (thread_rows d thread_id).

(** [get_thread_preview(db, thread_id)]. *)
Definition get_thread_preview (d : db) (thread_id : Z) : option thread_preview :=
  match get_thread d thread_id with
  | None => None
  | Some th =>
      Some {| pv_id := thread_id; pv_title := th_title th;
              pv_last_message_content :=
                option_map cv_content (last_conversation d thread_id);
              pv_updated_at := th_updated_at th |}
  end.

(** What a thread route hands back: a [{"message": ...}] dict or an
    [HTTPException(status_code, detail)]. *)
Inductive api_result :=
| JsonMessage (message : string)
| HttpError (status_code : Z) (detail : string).

Definition quote1 : string := String (Ascii.ascii_of_nat 39) EmptyString.

Section Routes.
Variable REQUESTS_PER_MINUTE : Z.

(** [delete_thread_by_id] with [current_user.id] as [current_user]; the
    whole body sits in [try]: [HTTPException]s pass through,
    any other exception (the [RateLimitError] of [track_request]
    included) becomes a 500 with [detail=str(e)]. *)
Definition delete_thread_by_id (now : Q) (us : usage) (d : db)
    (thread_id current_user : Z) : api_result * usage * db :=
  let '(tr, us1) := track_request REQUESTS_PER_MINUTE now us in
  match tr with
  | Raised e => (HttpError 500 (exc_str e), us1, d)
  | Ok _ =>
      match get_thread d thread_id with
      | None =>
          (HttpError 404 (String.append "Thread with ID "
             (String.append (py_str_int thread_id) " not found")), us1, d)
      | Some th =>
          if negb (Z.eqb (th_user_id th) current_user) then
            (HttpError 403 "You don't have permission to delete this thread",
             us1, d)
          else
            let '(success, d1) := delete_thread d thread_id in
            if negb success then
              (HttpError 500 (String.append "Error deleting thread "
                                (py_str_int thread_id)), us1, d1)
            else
              (JsonMessage (String.append "Thread " (String.append quote1
                 (String.append (th_title th)
                   (String.append quote1 " deleted successfully")))), us1, d1)
      end
  end.

(** [clear_thread_messages]: no [try], so the [RateLimitError] of
    [track_request] escapes the route. *)
Definition clear_thread_messages (now : Q) (us : usage) (d : db)
    (thread_id current_user : Z) : outcome api_result * usage * db :=
  let '(tr, us1) := track_request REQUESTS_PER_MINUTE now us in
  match tr with
  | Raised e => (Raised e, us1, d)
  | Ok _ =>
      match get_thread d thread_id with
      | None =>
          (Ok (HttpError 404 (String.append "Thread with ID "
                 (String.append (py_str_int thread_id) " not found"))), us1, d)
      | Some th =>
          if negb (Z.eqb (th_user_id th) current_user) then
            (Ok (HttpError 403
                   "You don't have permission to clear messages in this thread"),
             us1, d)
          else
            (Ok (JsonMessage "Messages cleared successfully"), us1,
             {| threads := threads d;
                conversations :=
                  List.filter (fun c => negb (Z.eqb (cv_thread_id c) thread_id))
                              (conversations d) |})
      end
  end.

End Routes.
End Service.

(** ** Bursts of calls against the throttle *)
Module Burst.
Import RateLimiter.

(** [check_token_rate_limit(n)] called once per clock reading of
    [times], in order: the booleans returned and the final state. *)
Fixpoint token_burst (T : Z) (times : list Q) (n : Z) (s : usage)
  : list bool * usage :=
  match times with
  | [] => ([], s)
  | t :: ts =>
      let '(b, s1) := check_token_rate_limit T t n s in
      let '(bs, s2) := token_burst T ts n s1 in
      (b :: bs, s2)
  end.

(** [track_request()] called once per clock reading of [times]: [true]
    for each call that returns, [false] for each that raises. *)
Fixpoint request_burst (R : Z) (times : list Q) (s : usage)
  : list bool * usage :=
  match times with
  | [] => ([], s)
  | t :: ts =>
      let '(o, s1) := track_request R t s in
      let b := match o with Ok _ => true | Raised _ => false end in
      let '(bs, s2) := request_burst R ts s1 in
      (b :: bs, s2)
  end.

End Burst.

(** Concrete inputs: the tokenizer [len(text)], JSON encoding as the
    identity, and a store holding thread 1 of user 7. *)
Module Samples.
Import Store.

Definition len_tokens (s : string) : Z := Z.of_nat (String.length s).

Definition json_id (s : string) : string := s.

Definition thread_1 : thread_row :=
  {| th_user_id := 7; th_title := "New chat"; th_updated_at := 0 |}.

Definition db_one : db :=
  {| threads := <[1 := thread_1]> (∅ : gmap Z thread_row);
     conversations := [] |}.

Definition fresh : RateLimiter.usage := RateLimiter.mk_usage 0 0 0.

End Samples.

(** * Properties of the usage throttle *)
Import RateLimiter.

Lemma run_app (R T : Z) (c1 c2 : list (Q * op)) (s : usage) :
  run R T (c1 ++ c2) s = run R T c2 (run R T c1 s).
Proof.
  revert s; induction c1 as [|[now o] c1 IH]; intros s; simpl; auto.
Qed.

(** Every entry point reads the state only through the reset check. *)
Lemma step_through_reset (R T : Z) (now : Q) (o : op) (s1 s2 : usage) :
  check_and_reset_counters now s1 = check_and_reset_counters now s2 ->
  step R T now o s1 = step R T now o s2.
Proof.
  intros Heq; destruct o; simpl;
    unfold track_request, check_token_rate_limit, get_rate_limit_status;
    rewrite Heq; reflexivity.
Qed.

Lemma reset_fires (now : Q) (s : usage) :
  (60 < now - last_reset s)%Q ->
  check_and_reset_counters now s = mk_usage now 0 0.
Proof.
  intros H; unfold check_and_reset_counters.
  destruct (Qle_bool (now - last_reset s) 60) eqn:E; [|reflexivity].
  apply Qle_bool_iff in E. exfalso; apply (Qlt_not_le _ _ H E).
Qed.

Lemma reset_idle (now : Q) (s : usage) :
  (now - last_reset s <= 60)%Q -> check_and_reset_counters now s = s.
Proof.
  intros H; unfold check_and_reset_counters.
  apply Qle_bool_iff in H; rewrite H; reflexivity.
Qed.

Lemma reset_fresh (now : Q) :
  check_and_reset_counters now (mk_usage now 0 0) = mk_usage now 0 0.
Proof.
  apply reset_idle; change (now - now <= 60)%Q.
  assert (E : (now - now == 0)%Q) by ring. rewrite E. discriminate.
Qed.

(** [tokens_used <= TOKENS_PER_MINUTE] holds along every call sequence
    when the limit is not negative. *)
Lemma run_tokens_within_limit (R T : Z) (calls : list (Q * op)) (s : usage) :
  0 <= T -> tokens_used s <= T -> tokens_used (run R T calls s) <= T.
Proof.
  intros HT; revert s; induction calls as [|[now o] calls IH]; intros s Hs;
    simpl; [exact Hs|apply IH].
  assert (H1 : tokens_used (check_and_reset_counters now s) <= T).
  { unfold check_and_reset_counters;
      destruct (negb (Qle_bool (now - last_reset s) 60)); simpl; lia. }
  destruct o; simpl;
    unfold track_request, check_token_rate_limit, get_rate_limit_status.
  - destruct (R <=? requests_used (check_and_reset_counters now s)); simpl; lia.
  - destruct (T <? tokens_used (check_and_reset_counters now s) + n) eqn:E;
      simpl; [lia|]. apply Z.ltb_ge in E; lia.
  - simpl; lia.
Qed.

(** C3 (counterexample): the status does not report
    [max(0, 60 - (now - windowStart))] seconds: half a second into a fresh
    window it reports 59, not 59.5. *)
Lemma status_reset_after_not_exact :
  ~ (inject_Z (reset_after_seconds
        (st_requests (fst (get_rate_limit_status 60 60000 (1#2) (1#2)
                              (mk_usage 0 0 0)))))
     == Qmax 0 (60 - ((1#2) - 0)))%Q.
Proof.
  intros H; apply Qeq_bool_iff in H; vm_compute in H; discriminate.
Qed.

(** C3 (amended): after the reset check at [now1], both budgets report
    [used] as the counters of the checked window and the same
    [reset_after_seconds], the integer truncation of
    [max(0, 60 - (now2 - windowStart))] read at the later clock [now2];
    requests report [remaining = max(0, limit - used)], and, whenever
    [tokensUsed <= tokenLimit] (kept by every call sequence, see
    [run_tokens_within_limit]), tokens report the same, a value never
    negative. *)
Theorem status_fields (R T : Z) (now1 now2 : Q) (s : usage)
    (HT : 0 <= T) (Hs : tokens_used s <= T) :
  let s1 := check_and_reset_counters now1 s in
  let st := fst (get_rate_limit_status R T now1 now2 s) in
  snd (get_rate_limit_status R T now1 now2 s) = s1 /\
  used (st_requests st) = requests_used s1 /\
  used (st_tokens st) = tokens_used s1 /\
  remaining (st_requests st) = Z.max 0 (R - used (st_requests st)) /\
  remaining (st_tokens st) = Z.max 0 (T - used (st_tokens st)) /\
  0 <= remaining (st_tokens st) /\
  reset_after_seconds (st_requests st)
    = py_int (py_max0 (60 - (now2 - last_reset s1))) /\
  reset_after_seconds (st_tokens st)
    = py_int (py_max0 (60 - (now2 - last_reset s1))).
Proof.
  intros s1 st; subst s1 st; simpl.
  assert (H1 : tokens_used (check_and_reset_counters now1 s) <= T).
  { unfold check_and_reset_counters;
      destruct (negb (Qle_bool (now1 - last_reset s) 60)); simpl; lia. }
  repeat split; lia.
Qed.

Lemma status_fields_witness :
  (0 <= 60000 /\ tokens_used (mk_usage 0 10 3) <= 60000) /\
  reset_after_seconds
    (st_tokens (fst (get_rate_limit_status 60 60000 (1#2) (1#2)
                       (mk_usage 0 10 3))))
    = py_int (py_max0 (60 - ((1#2) - last_reset
                         (check_and_reset_counters (1#2) (mk_usage 0 10 3))))).
Proof.
  split; [simpl; lia|].
  apply (status_fields 60 60000 (1#2) (1#2) (mk_usage 0 10 3)); simpl; lia.
Defined.

(** C4: after the reset check, [track_request] raises
    [RateLimitError("Request", REQUESTS_PER_MINUTE)] (status 429) leaving
    both counters as they are when [requestsUsed >= requestLimit], and
    otherwise adds exactly one request; [check_token_rate_limit(n)]
    returns [False] leaving both counters as they are when
    [tokensUsed + n > tokenLimit], and otherwise adds exactly [n] tokens
    and returns [True]. *)
Theorem admit_request_and_tokens (R T : Z) (now : Q) (n : Z) (s : usage) :
  let s1 := check_and_reset_counters now s in
  (R <= requests_used s1 ->
     track_request R now s = (Raised (RateLimitError "Request" R), s1) /\
     exc_status_code (RateLimitError "Request" R) = 429) /\
  (requests_used s1 < R ->
     track_request R now s
       = (Ok tt, mk_usage (last_reset s1) (tokens_used s1)
                          (requests_used s1 + 1))) /\
  (T < tokens_used s1 + n ->
     check_token_rate_limit T now n s = (false, s1)) /\
  (tokens_used s1 + n <= T ->
     check_token_rate_limit T now n s
       = (true, mk_usage (last_reset s1) (tokens_used s1 + n)
                         (requests_used s1))).
Proof.
  cbv zeta; unfold track_request, check_token_rate_limit.
  split; [|split; [|split]]; intros Hc.
  - apply Z.leb_le in Hc; rewrite Hc; split; reflexivity.
  - apply Z.leb_gt in Hc; rewrite Hc; reflexivity.
  - apply Z.ltb_lt in Hc; rewrite Hc; reflexivity.
  - apply Z.ltb_ge in Hc; rewrite Hc; reflexivity.
Qed.

Lemma admit_request_and_tokens_witness :
  let s := mk_usage 0 59995 60 in
  let s1 := check_and_reset_counters 30 s in
  (60 <= requests_used s1 /\
   track_request 60 30 s = (Raised (RateLimitError "Request" 60), s1)) /\
  (60000 < tokens_used s1 + 10 /\
   check_token_rate_limit 60000 30 10 s = (false, s1)) /\
  (let s' := mk_usage 0 3 5 in
   let s1' := check_and_reset_counters 30 s' in
   (requests_used s1' < 60 /\
    track_request 60 30 s' = (Ok tt, mk_usage 0 3 6)) /\
   (tokens_used s1' + 10 <= 60000 /\
    check_token_rate_limit 60000 30 10 s' = (true, mk_usage 0 13 5))).
Proof.
  pose proof (admit_request_and_tokens 60 60000 30 10 (mk_usage 0 59995 60))
    as [Ha [_ [Hc _]]].
  pose proof (admit_request_and_tokens 60 60000 30 10 (mk_usage 0 3 5))
    as [_ [Hb [_ Hd]]].
  simpl in *.
  split; [split; [lia|apply Ha; lia]|].
  split; [split; [lia|apply Hc; lia]|].
  split; (split; [lia|]); [apply Hb; lia|apply Hd; lia].
Defined.

(** C8: a call that sees more than 60 seconds since [windowStart]
    first replaces the state by a fresh window ([windowStart = now], both
    counters zero), a call that does not leaves it as it is, and so the
    state after any call sequence crossing such a boundary is the state
    the calls from the boundary on produce from a fresh window: the
    earlier calls leave no trace. *)
Theorem window_reset (R T : Z) :
  (forall (now : Q) (s : usage), (60 < now - last_reset s)%Q ->
     check_and_reset_counters now s = mk_usage now 0 0) /\
  (forall (now : Q) (s : usage), (now - last_reset s <= 60)%Q ->
     check_and_reset_counters now s = s) /\
  (forall (before after : list (Q * op)) (now : Q) (o : op) (s : usage),
     (60 < now - last_reset (run R T before s))%Q ->
     run R T (before ++ (now, o) :: after) s
       = run R T ((now, o) :: after) (mk_usage now 0 0)).
Proof.
  split; [exact reset_fires|split; [exact reset_idle|]].
  intros before after now o s H.
  rewrite run_app; simpl; f_equal.
  apply step_through_reset.
  rewrite reset_fires by exact H; symmetry; apply reset_fresh.
Qed.

Lemma window_reset_witness :
  (60 < 100 - last_reset (run 60 60000 [(0%Q, OpRequest); (10%Q, OpTokens 500)]
                            (mk_usage 0 0 0)))%Q /\
  run 60 60000 ([(0%Q, OpRequest); (10%Q, OpTokens 500)]
                ++ [(100%Q, OpTokens 7); (101%Q, OpRequest)]) (mk_usage 0 0 0)
    = run 60 60000 [(100%Q, OpTokens 7); (101%Q, OpRequest)]
          (mk_usage 100 0 0).
Proof.
  assert (H : (60 < 100 - last_reset (run 60 60000
                 [(0%Q, OpRequest); (10%Q, OpTokens 500)] (mk_usage 0 0 0)))%Q)
    by (vm_compute; reflexivity).
  split; [exact H|].
  destruct (window_reset 60 60000) as [_ [_ Hrun]].
  apply (Hrun _ [(101%Q, OpRequest)] 100%Q (OpTokens 7)); exact H.
Defined.

(** * Properties of [stream_response] *)
Import Store Chat.

Lemma string_append_assoc (a b c : string) :
  String.append a (String.append b c) = String.append (String.append a b) c.
Proof. induction a as [|x a IH]; [reflexivity|exact (f_equal (String x) IH)]. Qed.

Lemma string_append_empty (a : string) : String.append a EmptyString = a.
Proof. induction a as [|x a IH]; [reflexivity|exact (f_equal (String x) IH)]. Qed.

Lemma render_content_not_done (js : string -> string) (s : string) :
  render js (SseContent s) <> render js SseDone.
Proof. simpl; discriminate. Qed.

Section StreamProofs.
Variable T : Z.
Variable count_tokens : string -> Z.
Variable thread_id : Z.
Variable model : string.

Local Abbreviation loop := (stream_loop T count_tokens thread_id model).

(** The loop runs over an admitted prefix by forwarding its fragments and
    growing the accumulator, then continues at the rest of the stream. *)
Lemma loop_prepend (pre : list (Q * option string)) (u : chunk_stream)
    (acc : string) (us us1 : usage) (d : db) (fwd : list string) :
  admitted_prefix T count_tokens pre us = Some (fwd, us1) ->
  let r := loop u (String.append acc (concat_fragments fwd)) us1 d in
  loop (prepend pre u) acc us d
    = {| events := map SseContent fwd ++ events r;
         usage_after := usage_after r; db_after := db_after r;
         exit := exit r |}.
Proof.
  revert acc us fwd; induction pre as [|[now [t|]] p IH];
    intros acc us fwd H; simpl in H |- *.
  - injection H as <- <-; simpl; rewrite string_append_empty.
    destruct (loop u acc us d); reflexivity.
  - destruct (String.eqb t "") eqn:Et; [apply IH; exact H|].
    destruct (check_token_rate_limit T now (count_tokens t) us) as [ok us'].
    destruct ok; [|discriminate].
    destruct (admitted_prefix T count_tokens p us') as [[f u1]|] eqn:Hp;
      [|discriminate].
    injection H as <- <-.
    rewrite (IH (String.append acc t) us' f Hp); simpl.
    rewrite <- string_append_assoc; reflexivity.
  - apply IH; exact H.
Qed.

(** Every run of the loop ends with the sentinel, and only there. *)
Lemma loop_ends_with_done (u : chunk_stream) (acc : string) (us : usage)
    (d : db) :
  exists pre, events (loop u acc us d) = pre ++ [SseDone] /\ ~ In SseDone pre.
Proof.
  revert acc us; induction u as [now|msg|now text rest IH]; intros acc us;
    simpl.
  - exists []; split; [reflexivity|intros []].
  - exists [SseContent (error_text msg)]; split; [reflexivity|].
    intros [H|[]]; discriminate.
  - destruct text as [t|]; [|apply IH].
    destruct (String.eqb t ""); [apply IH|].
    destruct (check_token_rate_limit T now (count_tokens t) us) as [ok us'].
    destruct ok; simpl.
    + destruct (IH (String.append acc t) us') as [pre [Hpre Hn]].
      exists (SseContent t :: pre); rewrite Hpre; split; [reflexivity|].
      intros [H|H]; [discriminate|exact (Hn H)].
    + exists [SseContent truncation_notice]; split; [reflexivity|].
      intros [H|[]]; discriminate.
Qed.

(** A truncated run changes nothing in the store and ends with the notice
    and the sentinel after the forwarded fragments. *)
Lemma loop_truncated (u : chunk_stream) (acc : string) (us : usage) (d : db) :
  exit (loop u acc us d) = ExitTruncated ->
  db_after (loop u acc us d) = d /\
  exists fwd, events (loop u acc us d)
              = map SseContent fwd ++ [SseContent truncation_notice; SseDone].
Proof.
  revert acc us; induction u as [now|msg|now text rest IH]; intros acc us;
    simpl; try discriminate.
  destruct text as [t|]; [|apply IH].
  destruct (String.eqb t ""); [apply IH|].
  destruct (check_token_rate_limit T now (count_tokens t) us) as [ok us'].
  destruct ok; simpl; intros H.
  - destruct (IH (String.append acc t) us' H) as [Hd [fwd Hf]].
    split; [exact Hd|exists (t :: fwd); rewrite Hf; reflexivity].
  - split; [reflexivity|exists []; reflexivity].
Qed.

End StreamProofs.

Import Samples.

(** A completed run over an existing thread persists one model-role turn
    holding the forwarded fragments in order. *)
Lemma completed_persists_once (T : Z) (count_tokens : string -> Z)
    (thread_id : Z) (model : string) (pre : list (Q * option string))
    (now : Q) (us us1 : usage) (d : db) (fwd : list string) (th : thread_row) :
  admitted_prefix T count_tokens pre us = Some (fwd, us1) ->
  threads d !! thread_id = Some th ->
  let r := stream_response T count_tokens thread_id model
             (prepend pre (SEnd now)) us d in
  events r = map SseContent fwd ++ [SseDone] /\
  exit r = ExitCompleted /\
  conversations (db_after r)
    = conversations d ++
      [{| cv_thread_id := thread_id; cv_role := "model";
          cv_content := concat_fragments fwd; cv_model := Some model;
          cv_token_count := count_tokens (concat_fragments fwd) |}].
Proof.
  intros Hp Hth; unfold stream_response.
  rewrite (loop_prepend T count_tokens thread_id model pre (SEnd now)
             EmptyString us us1 d fwd Hp).
  cbn [stream_loop events exit db_after]; unfold add_messages_to_thread.
  rewrite Hth; cbn; split; [reflexivity|split; [reflexivity|]].
  change (String.append EmptyString (concat_fragments fwd))
    with (concat_fragments fwd).
  destruct (Z.eqb (count_tokens (concat_fragments fwd)) 0); reflexivity.
Qed.

(** C1 (counterexample): with token limit 5, tokenizer [len(text)] and
    fragments ["aaaaa"; "bbbbb"] on an existing thread, ["aaaaa"] is
    forwarded, the second fragment truncates the stream, and no model-role
    turn is persisted. *)
Lemma truncation_persists_no_turn :
  let r := stream_response 5 len_tokens 1 "gemini-2.0-flash"
             (SChunk 0 (Some "aaaaa"%string) (SChunk 1 (Some "bbbbb"%string) (SEnd 2)))
             fresh db_one in
  exit r = ExitTruncated /\
  events r = [SseContent "aaaaa"; SseContent truncation_notice; SseDone] /\
  ~ (exists c, In c (conversations (db_after r)) /\
               cv_role c = "model"%string /\ cv_content c = "aaaaa"%string).
Proof.
  vm_compute. split; [reflexivity|split; [reflexivity|]].
  intros [c [[] _]].
Qed.

(** C1 (amended): when a fragment's token check fails, the stream ends
    with the truncation notice and the sentinel after the fragments
    already forwarded, and the store is left as it was: no model-role turn
    is persisted. *)
Theorem truncated_stream_keeps_store (T : Z) (count_tokens : string -> Z)
    (thread_id : Z) (model : string) (u : chunk_stream) (us : usage) (d : db) :
  exit (stream_response T count_tokens thread_id model u us d) = ExitTruncated ->
  db_after (stream_response T count_tokens thread_id model u us d) = d /\
  exists fwd, events (stream_response T count_tokens thread_id model u us d)
              = map SseContent fwd ++ [SseContent truncation_notice; SseDone].
Proof. apply loop_truncated. Qed.

Lemma truncated_stream_keeps_store_witness :
  let u := SChunk 0 (Some "aaaaa"%string) (SChunk 1 (Some "bbbbb"%string) (SEnd 2)) in
  exit (stream_response 5 len_tokens 1 "gemini-2.0-flash" u fresh db_one)
    = ExitTruncated /\
  db_after (stream_response 5 len_tokens 1 "gemini-2.0-flash" u fresh db_one)
    = db_one.
Proof.
  assert (H : exit (stream_response 5 len_tokens 1 "gemini-2.0-flash"
             (SChunk 0 (Some "aaaaa"%string) (SChunk 1 (Some "bbbbb"%string) (SEnd 2)))
             fresh db_one) = ExitTruncated) by (vm_compute; reflexivity).
  split; [exact H|].
  exact (proj1 (truncated_stream_keeps_store _ _ _ _ _ _ _ H)).
Defined.

(** C5 (failing input): a completed stream of ["Hel"; "lo"; " world"] sent
    to thread 2, which does not exist, forwards the three fragments and
    the sentinel and persists no model-role turn at all:
    [add_messages_to_thread] returns [False] and the loss goes unnoticed.
    The route lets such a request through (see C2). *)
Lemma completed_stream_missing_thread :
  let r := stream_response 60000 len_tokens 2 "gemini-2.0-flash"
             (SChunk 0 (Some "Hel"%string)
               (SChunk 0 (Some "lo"%string)
                 (SChunk 0 (Some " world"%string) (SEnd 1))))
             fresh db_one in
  exit r = ExitCompleted /\
  events r = [SseContent "Hel"; SseContent "lo"; SseContent " world"; SseDone] /\
  db_after r = db_one /\
  conversations (db_after r) = [].
Proof. vm_compute; repeat split; reflexivity. Qed.

(** C6: once the token check of a non-empty fragment fails, after the
    fragments admitted before it the stream yields exactly the truncation
    notice and the sentinel: neither that fragment nor any later one is
    forwarded. *)
Theorem truncation_stops_forwarding (T : Z) (count_tokens : string -> Z)
    (thread_id : Z) (model : string) (pre : list (Q * option string))
    (now : Q) (new_text : string) (rest : chunk_stream)
    (us us1 : usage) (d : db) (fwd : list string) :
  admitted_prefix T count_tokens pre us = Some (fwd, us1) ->
  new_text <> EmptyString ->
  fst (check_token_rate_limit T now (count_tokens new_text) us1) = false ->
  let r := stream_response T count_tokens thread_id model
             (prepend pre (SChunk now (Some new_text) rest)) us d in
  events r = map SseContent fwd ++ [SseContent truncation_notice; SseDone] /\
  exit r = ExitTruncated.
Proof.
  intros Hp Hne Hc; unfold stream_response.
  rewrite (loop_prepend T count_tokens thread_id model pre _ EmptyString
             us us1 d fwd Hp).
  cbn [stream_loop].
  destruct (String.eqb_spec new_text EmptyString) as [E|_]; [contradiction|].
  destruct (check_token_rate_limit T now (count_tokens new_text) us1)
    as [ok us'] eqn:E.
  simpl in Hc; subst ok; split; reflexivity.
Qed.

Lemma truncation_stops_forwarding_witness :
  admitted_prefix 5 len_tokens [(0%Q, Some "aaaaa"%string)] fresh
    = Some (["aaaaa"%string], mk_usage 0 5 0) /\
  "bbbbb"%string <> EmptyString /\
  fst (check_token_rate_limit 5 1 (len_tokens "bbbbb") (mk_usage 0 5 0)) = false /\
  events (stream_response 5 len_tokens 1 "gemini-2.0-flash"
            (prepend [(0%Q, Some "aaaaa"%string)]
               (SChunk 1 (Some "bbbbb"%string) (SEnd 2))) fresh db_one)
    = [SseContent "aaaaa"; SseContent truncation_notice; SseDone].
Proof.
  assert (Hp : admitted_prefix 5 len_tokens [(0%Q, Some "aaaaa"%string)] fresh
               = Some (["aaaaa"%string], mk_usage 0 5 0))
    by (vm_compute; reflexivity).
  assert (Hne : "bbbbb"%string <> EmptyString) by discriminate.
  assert (Hc : fst (check_token_rate_limit 5 1 (len_tokens "bbbbb")
                      (mk_usage 0 5 0)) = false) by (vm_compute; reflexivity).
  split; [exact Hp|split; [exact Hne|split; [exact Hc|]]].
  exact (proj1 (truncation_stops_forwarding 5 len_tokens 1 "gemini-2.0-flash"
                  _ 1 _ (SEnd 2) fresh _ db_one _ Hp Hne Hc)).
Defined.

(** C7: every run of [stream_response] yields the sentinel as its last
    event and nowhere before; the sentinel's bytes differ from those of
    every content event; and when the model call raises, whether in
    [send_message_stream] or during the iteration after some admitted
    fragments, the stream yields those fragments, one error fragment and
    the sentinel, and persists nothing. *)
Theorem stream_terminates_with_sentinel (T : Z) (count_tokens : string -> Z)
    (json_string : string -> string) (thread_id : Z) (model : string) :
  (forall (u : chunk_stream) (us : usage) (d : db),
     exists pre, events (stream_response T count_tokens thread_id model u us d)
                 = pre ++ [SseDone] /\ ~ In SseDone pre) /\
  (forall s : string,
     render json_string (SseContent s) <> render json_string SseDone) /\
  (forall (pre : list (Q * option string)) (msg : string) (us us1 : usage)
          (d : db) (fwd : list string),
     admitted_prefix T count_tokens pre us = Some (fwd, us1) ->
     let r := stream_response T count_tokens thread_id model
                (prepend pre (SRaise msg)) us d in
     events r = map SseContent fwd ++ [SseContent (error_text msg); SseDone] /\
     db_after r = d /\ exit r = ExitFailed).
Proof.
  split; [intros u us d; apply loop_ends_with_done|].
  split; [apply render_content_not_done|].
  intros pre msg us us1 d fwd Hp; unfold stream_response.
  rewrite (loop_prepend T count_tokens thread_id model pre _ EmptyString
             us us1 d fwd Hp).
  split; [reflexivity|split; reflexivity].
Qed.

Lemma stream_terminates_with_sentinel_witness :
  admitted_prefix 60000 len_tokens [(0%Q, Some "Hel"%string)] fresh
    = Some (["Hel"%string], mk_usage 0 3 0) /\
  events (stream_response 60000 len_tokens 1 "gemini-2.0-flash"
            (prepend [(0%Q, Some "Hel"%string)] (SRaise "quota exhausted"))
            fresh db_one)
    = [SseContent "Hel"; SseContent (error_text "quota exhausted"); SseDone].
Proof.
  assert (Hp : admitted_prefix 60000 len_tokens [(0%Q, Some "Hel"%string)] fresh
               = Some (["Hel"%string], mk_usage 0 3 0))
    by (vm_compute; reflexivity).
  split; [exact Hp|].
  destruct (stream_terminates_with_sentinel 60000 len_tokens json_id 1
              "gemini-2.0-flash") as [_ [_ H]].
  exact (proj1 (H _ "quota exhausted"%string _ _ db_one _ Hp)).
Defined.

(** * Properties of the chat route *)
Import Route.

(** On an existing thread the route commits the user turn, with
    [token_count = count_tokens(question)], into the store the stream
    will run on, before it hands back the not yet started stream. *)
Lemma route_user_turn_first (count_tokens : string -> Z) (now : Q) (d : db)
    (thread_id : Z) (model question : string) (th : thread_row) :
  threads d !! thread_id = Some th ->
  let res := chat_with_thread count_tokens now d thread_id model question
               (history_of d thread_id) (Ok tt) in
  fst res = StreamingResponse model (get_thread_messages_optimized d thread_id)
              thread_id /\
  conversations (snd res)
    = conversations d ++
      [{| cv_thread_id := thread_id; cv_role := "user";
          cv_content := question; cv_model := None;
          cv_token_count := count_tokens question |}].
Proof.
  intros Hth; unfold chat_with_thread, add_messages_to_thread.
  rewrite Hth; cbn; split; [reflexivity|].
  destruct (Z.eqb (count_tokens question) 0); reflexivity.
Qed.

(** C2 (failing input): the route checks neither existence nor
    ownership.  For thread 2, which does not exist, it answers with a
    stream rather than a 404 (the user message is dropped silently); for
    thread 1, owned by user 7, it answers with a stream and commits the
    user turn into that thread whoever the caller is: the route has no
    [current_user] at all. *)
Lemma chat_route_skips_thread_checks :
  fst (chat_with_thread len_tokens 5 db_one 2 "gemini-2.0-flash" "hi"
         (history_of db_one 2) (Ok tt))
    = StreamingResponse "gemini-2.0-flash" [] 2 /\
  fst (chat_with_thread len_tokens 5 db_one 1 "gemini-2.0-flash" "hi"
         (history_of db_one 1) (Ok tt))
    = StreamingResponse "gemini-2.0-flash" [] 1 /\
  th_user_id thread_1 = 7 /\
  conversations (snd (chat_with_thread len_tokens 5 db_one 1
                        "gemini-2.0-flash" "hi" (history_of db_one 1) (Ok tt)))
    = [{| cv_thread_id := 1; cv_role := "user"; cv_content := "hi";
          cv_model := None; cv_token_count := 2 |}].
Proof. vm_compute; repeat split; reflexivity. Qed.

(** C9 (failing input): for thread 2, which does not exist, no user turn
    is persisted, yet the route hands back the stream whose generator then
    issues the model call. *)
Lemma chat_route_missing_thread_no_user_turn :
  let res := chat_with_thread len_tokens 5 db_one 2 "gemini-2.0-flash"
               "hi" (history_of db_one 2) (Ok tt) in
  snd res = db_one /\
  fst res = StreamingResponse "gemini-2.0-flash" [] 2.
Proof. vm_compute; split; reflexivity. Qed.

(** C10: when the history query raises, the route behaves exactly as if
    the thread had no history, and the chat session is created with an
    empty history. *)
Theorem history_failure_means_empty_history (count_tokens : string -> Z)
    (now : Q) (d : db) (thread_id : Z) (model question : string)
    (e : py_exc) (chat_setup : outcome unit) :
  chat_with_thread count_tokens now d thread_id model question (Raised e)
    chat_setup
  = chat_with_thread count_tokens now d thread_id model question (Ok [])
      chat_setup /\
  fst (chat_with_thread count_tokens now d thread_id model question
         (Raised e) (Ok tt))
  = StreamingResponse model [] thread_id.
Proof. split; reflexivity. Qed.

(** * Properties of the thread services *)
Import Service.

Section ServiceProofs.
Variable count_tokens : string -> Z.

Local Abbreviation add := (add_messages_to_thread count_tokens).

(** The rows [add_messages_to_thread] writes, in order. *)
Local Abbreviation new_rows thread_id um am :=
  ((match um with
    | Some m => [{| cv_thread_id := thread_id; cv_role := "user";
                    cv_content := msg_content m; cv_model := None;
                    cv_token_count := token_count_or count_tokens m |}]
    | None => []
    end) ++
   (match am with
    | Some m => [{| cv_thread_id := thread_id; cv_role := "model";
                    cv_content := msg_content m; cv_model := msg_model m;
                    cv_token_count := token_count_or count_tokens m |}]
    | None => []
    end)).

Lemma add_messages_some (now : Q) (d : db) (thread_id : Z)
    (um am : option message) (th : thread_row) :
  threads d !! thread_id = Some th ->
  add now d thread_id um am
    = (true, {| threads := <[thread_id := {| th_user_id := th_user_id th;
                                            th_title := th_title th;
                                            th_updated_at := now |}]> (threads d);
                conversations := conversations d ++ new_rows thread_id um am |}).
Proof.
  intros H; unfold add_messages_to_thread; rewrite H.
  destruct um, am; simpl; rewrite ?app_nil_r, <- ?app_assoc; reflexivity.
Qed.

Lemma thread_rows_app (l1 l2 : list conversation) (d : db) (thread_id : Z) :
  conversations d = l1 ++ l2 ->
  thread_rows d thread_id
    = List.filter (fun c => Z.eqb (cv_thread_id c) thread_id) l1 ++
      List.filter (fun c => Z.eqb (cv_thread_id c) thread_id) l2.
Proof. intros H; unfold thread_rows; rewrite H; apply List.filter_app. Qed.

Lemma new_rows_filter (thread_id t : Z) (um am : option message) :
  List.filter (fun c => Z.eqb (cv_thread_id c) t) (new_rows thread_id um am)
    = if Z.eqb thread_id t then new_rows thread_id um am else [].
Proof.
  destruct (Z.eqb thread_id t) eqn:E; destruct um, am; simpl; rewrite ?E;
    reflexivity.
Qed.

Lemma thread_rows_add (now : Q) (d : db) (thread_id t : Z)
    (um am : option message) (th : thread_row) :
  threads d !! thread_id = Some th ->
  thread_rows (snd (add now d thread_id um am)) t
    = thread_rows d t ++
      (if Z.eqb thread_id t then new_rows thread_id um am else []).
Proof.
  intros H; rewrite (add_messages_some now d thread_id um am th H); simpl.
  rewrite (thread_rows_app (conversations d) (new_rows thread_id um am)) by reflexivity.
  rewrite new_rows_filter; reflexivity.
Qed.

Lemma history_rows (d : db) (t : Z) :
  get_thread_messages_optimized d t
  = map (fun c => {| h_role := cv_role c; h_parts := [cv_content c] |})
        (thread_rows d t).
Proof. reflexivity. Qed.

Lemma sum_app (l1 l2 : list Z) :
  fold_right Z.add 0 (l1 ++ l2) = fold_right Z.add 0 l1 + fold_right Z.add 0 l2.
Proof. induction l1 as [|x l1 IH]; simpl; [reflexivity|rewrite IH; lia]. Qed.

Lemma last_opt_snoc {A : Type} (l : list A) (x : A) : last_opt (l ++ [x]) = Some x.
Proof.
  induction l as [|y l IH]; [reflexivity|].
  simpl; destruct (l ++ [x]) eqn:E; [destruct l; discriminate|exact IH].
Qed.

Lemma last_opt_app {A : Type} (l l' : list A) :
  l' <> [] -> last_opt (l ++ l') = last_opt l'.
Proof.
  intros Hne; induction l as [|y l IH]; [reflexivity|].
  simpl; destruct (l ++ l') eqn:E;
    [apply app_eq_nil in E; destruct E; contradiction|exact IH].
Qed.

(** [add_messages_to_thread] on a missing thread returns [False] and
    writes nothing; on an existing one it returns [True], keeps the
    thread's owner and title, sets its [updated_at] to [now], leaves every
    other thread as it is, and only appends rows, one per given message,
    all in that thread. *)
Theorem add_messages_frame (now : Q) (d : db) (thread_id : Z)
    (um am : option message) :
  (threads d !! thread_id = None -> add now d thread_id um am = (false, d)) /\
  (forall th : thread_row, threads d !! thread_id = Some th ->
     let d' := snd (add now d thread_id um am) in
     fst (add now d thread_id um am) = true /\
     threads d' !! thread_id
       = Some {| th_user_id := th_user_id th; th_title := th_title th;
                 th_updated_at := now |} /\
     (forall t, t <> thread_id -> threads d' !! t = threads d !! t) /\
     exists rows, conversations d' = conversations d ++ rows /\
                  Forall (fun c => cv_thread_id c = thread_id) rows /\
                  length rows = ((if um then 1 else 0) + (if am then 1 else 0))%nat).
Proof.
  split; [intros H; unfold add_messages_to_thread; rewrite H; reflexivity|].
  intros th H; rewrite (add_messages_some now d thread_id um am th H); simpl.
  split; [reflexivity|split; [apply lookup_insert_eq|split]].
  - intros t Ht; apply lookup_insert_ne; congruence.
  - exists (new_rows thread_id um am); split; [reflexivity|].
    destruct um, am; simpl; split; repeat constructor.
Qed.

(** After a user turn and a model turn are added to an existing thread,
    the history the chat route sends to the model is the old history
    followed by those two entries; other threads' histories do not
    change. *)
Theorem history_after_exchange (now : Q) (d : db) (thread_id : Z)
    (u a : message) (th : thread_row) :
  threads d !! thread_id = Some th ->
  get_thread_messages_optimized (snd (add now d thread_id (Some u) (Some a)))
    thread_id
  = get_thread_messages_optimized d thread_id ++
    [{| h_role := "user"; h_parts := [msg_content u] |};
     {| h_role := "model"; h_parts := [msg_content a] |}] /\
  (forall t, t <> thread_id ->
     get_thread_messages_optimized (snd (add now d thread_id (Some u) (Some a))) t
     = get_thread_messages_optimized d t).
Proof.
  intros H; split.
  - pose proof (thread_rows_add now d thread_id thread_id (Some u) (Some a) th H)
      as E; rewrite Z.eqb_refl in E.
    rewrite !history_rows, E, map_app; reflexivity.
  - intros t Ht.
    pose proof (thread_rows_add now d thread_id t (Some u) (Some a) th H) as E.
    replace (Z.eqb thread_id t) with false in E by (symmetry; apply Z.eqb_neq; congruence).
    rewrite !history_rows, E, app_nil_r; reflexivity.
Qed.

End ServiceProofs.

Lemma history_after_exchange_witness :
  threads Samples.db_one !! 1 = Some Samples.thread_1 /\
  get_thread_messages_optimized
    (snd (add_messages_to_thread Samples.len_tokens 3 Samples.db_one 1
            (Some (mk_message "hi" None None))
            (Some (mk_message "hello" (Some "gemini-2.0-flash"%string) None)))) 1
  = get_thread_messages_optimized Samples.db_one 1 ++
    [{| h_role := "user"; h_parts := ["hi"%string] |};
     {| h_role := "model"; h_parts := ["hello"%string] |}].
Proof.
  assert (H : threads Samples.db_one !! 1 = Some Samples.thread_1)
    by reflexivity.
  split; [exact H|].
  exact (proj1 (history_after_exchange Samples.len_tokens 3 Samples.db_one 1
                  _ _ Samples.thread_1 H)).
Defined.

Lemma add_messages_frame_witness :
  add_messages_to_thread Samples.len_tokens 3 Samples.db_one 2
    (Some (mk_message "hi" None None)) None = (false, Samples.db_one) /\
  fst (add_messages_to_thread Samples.len_tokens 3 Samples.db_one 1
         (Some (mk_message "hi" None None)) None) = true.
Proof.
  destruct (add_messages_frame Samples.len_tokens 3 Samples.db_one 2
              (Some (mk_message "hi" None None)) None) as [Hm _].
  destruct (add_messages_frame Samples.len_tokens 3 Samples.db_one 1
              (Some (mk_message "hi" None None)) None) as [_ He].
  split; [apply Hm; reflexivity|].
  exact (proj1 (He Samples.thread_1 eq_refl)).
Defined.

(** Adding turns to an existing thread raises its stored token total
    ([get_thread_token_count], [get_total_tokens_from_db]) by exactly the
    token counts written for them and leaves every other thread's total
    as it is. *)
Theorem token_total_after_add (count_tokens : string -> Z) (now : Q) (d : db)
    (thread_id : Z) (um am : option message) (th : thread_row) :
  threads d !! thread_id = Some th ->
  get_thread_token_count
    (snd (add_messages_to_thread count_tokens now d thread_id um am)) thread_id
  = get_thread_token_count d thread_id
    + (match um with Some m => token_count_or count_tokens m | None => 0 end)
    + (match am with Some m => token_count_or count_tokens m | None => 0 end) /\
  (forall t, t <> thread_id ->
     get_thread_token_count
       (snd (add_messages_to_thread count_tokens now d thread_id um am)) t
     = get_thread_token_count d t).
Proof.
  intros H; unfold get_thread_token_count; split.
  - rewrite (thread_rows_add count_tokens now d thread_id thread_id um am th H),
      Z.eqb_refl, map_app, sum_app.
    destruct um, am; simpl; lia.
  - intros t Ht.
    rewrite (thread_rows_add count_tokens now d thread_id t um am th H).
    replace (Z.eqb thread_id t) with false by (symmetry; apply Z.eqb_neq; congruence).
    rewrite app_nil_r; reflexivity.
Qed.

Lemma token_total_after_add_witness :
  threads Samples.db_one !! 1 = Some Samples.thread_1 /\
  get_thread_token_count
    (snd (add_messages_to_thread Samples.len_tokens 3 Samples.db_one 1
            (Some (mk_message "hi" None None))
            (Some (mk_message "hello" None (Some 9))))) 1
  = get_thread_token_count Samples.db_one 1 + 2 + 9.
Proof.
  assert (H : threads Samples.db_one !! 1 = Some Samples.thread_1)
    by reflexivity.
  split; [exact H|].
  exact (proj1 (token_total_after_add Samples.len_tokens 3 Samples.db_one 1
                  _ _ Samples.thread_1 H)).
Defined.

(** The preview of a missing thread is [None]; after a model turn is
    added to an existing thread its preview shows that turn's content as
    the last message, the unchanged title and the new [updated_at]. *)
Theorem preview_after_model_turn (count_tokens : string -> Z) (now : Q)
    (d : db) (thread_id : Z) (um : option message) (a : message) :
  (threads d !! thread_id = None -> get_thread_preview d thread_id = None) /\
  (forall th : thread_row, threads d !! thread_id = Some th ->
     get_thread_preview
       (snd (add_messages_to_thread count_tokens now d thread_id um (Some a)))
       thread_id
     = Some {| pv_id := thread_id; pv_title := th_title th;
               pv_last_message_content := Some (msg_content a);
               pv_updated_at := now |}).
Proof.
  split; [intros H; unfold get_thread_preview, get_thread; rewrite H; reflexivity|].
  intros th H; unfold get_thread_preview, last_conversation.
  rewrite (thread_rows_add count_tokens now d thread_id thread_id um (Some a) th H),
    Z.eqb_refl.
  rewrite (add_messages_some count_tokens now d thread_id um (Some a) th H).
  unfold get_thread; simpl; rewrite lookup_insert_eq.
  rewrite last_opt_app by (destruct um; discriminate).
  destruct um; reflexivity.
Qed.

Lemma preview_after_model_turn_witness :
  get_thread_preview Samples.db_one 2 = None /\
  get_thread_preview
    (snd (add_messages_to_thread Samples.len_tokens 3 Samples.db_one 1 None
            (Some (mk_message "hello" None None)))) 1
  = Some {| pv_id := 1; pv_title := "New chat";
            pv_last_message_content := Some "hello"%string;
            pv_updated_at := 3 |}.
Proof.
  destruct (preview_after_model_turn Samples.len_tokens 3 Samples.db_one 2 None
              (mk_message "hello" None None)) as [Hm _].
  destruct (preview_after_model_turn Samples.len_tokens 3 Samples.db_one 1 None
              (mk_message "hello" None None)) as [_ He].
  split; [apply Hm; reflexivity|].
  exact (He Samples.thread_1 eq_refl).
Defined.

(** The messages endpoint ([get_thread_messages], default [limit=100])
    returns at most 100 rows, the oldest ones: once a thread holds 100
    rows, turns added later no longer show up in it. *)
Theorem messages_capped_at_100 (count_tokens : string -> Z) (now : Q) (d : db)
    (thread_id : Z) (um am : option message) (th : thread_row) :
  (length (get_thread_messages d thread_id) <= 100)%nat /\
  get_thread_messages d thread_id = firstn 100 (thread_rows d thread_id) /\
  ((100 <= length (thread_rows d thread_id))%nat ->
   threads d !! thread_id = Some th ->
   get_thread_messages
     (snd (add_messages_to_thread count_tokens now d thread_id um am)) thread_id
   = get_thread_messages d thread_id).
Proof.
  split; [apply firstn_le_length|split; [reflexivity|]].
  intros Hlen H; unfold get_thread_messages, get_thread_conversations;
    rewrite !List.skipn_0.
  rewrite (thread_rows_add count_tokens now d thread_id thread_id um am th H),
    Z.eqb_refl, List.firstn_app.
  replace (100 - length (thread_rows d thread_id))%nat with 0%nat by lia.
  simpl; rewrite app_nil_r; reflexivity.
Qed.

Lemma messages_capped_at_100_witness :
  let row := {| cv_thread_id := 1; cv_role := "user"; cv_content := "q";
                cv_model := None; cv_token_count := 1 |} in
  let d := {| threads := threads Samples.db_one;
              conversations := List.repeat row 100 |} in
  (100 <= length (thread_rows d 1))%nat /\
  threads d !! 1 = Some Samples.thread_1 /\
  get_thread_messages
    (snd (add_messages_to_thread Samples.len_tokens 3 d 1
            (Some (mk_message "newest" None None)) None)) 1
  = get_thread_messages d 1.
Proof.
  intros row d.
  assert (Hl : (100 <= length (thread_rows d 1))%nat) by (vm_compute; lia).
  assert (H : threads d !! 1 = Some Samples.thread_1) by reflexivity.
  split; [exact Hl|split; [exact H|]].
  exact (proj2 (proj2 (messages_capped_at_100 Samples.len_tokens 3 d 1
                         (Some (mk_message "newest" None None)) None
                         Samples.thread_1)) Hl H).
Defined.

(** [delete_thread] on a missing thread returns [False] and changes
    nothing; on an existing one it returns [True], the thread is gone,
    so are all its messages (the [delete-orphan] cascade), and every other
    thread and its messages stay. *)
Theorem delete_thread_cascades (d : db) (thread_id : Z) :
  (threads d !! thread_id = None -> delete_thread d thread_id = (false, d)) /\
  (forall th : thread_row, threads d !! thread_id = Some th ->
     let d' := snd (delete_thread d thread_id) in
     fst (delete_thread d thread_id) = true /\
     get_thread d' thread_id = None /\
     thread_rows d' thread_id = [] /\
     (forall t, t <> thread_id ->
        get_thread d' t = get_thread d t /\ thread_rows d' t = thread_rows d t)).
Proof.
  split; [intros H; unfold delete_thread; rewrite H; reflexivity|].
  intros th H; unfold delete_thread; rewrite H; simpl.
  split; [reflexivity|split; [apply lookup_delete_eq|split]].
  - unfold thread_rows; simpl.
    induction (conversations d) as [|c l IH]; simpl; [reflexivity|].
    destruct (Z.eqb (cv_thread_id c) thread_id) eqn:E; simpl; rewrite ?E; exact IH.
  - intros t Ht; split; [apply lookup_delete_ne; congruence|].
    unfold thread_rows; simpl.
    induction (conversations d) as [|c l IH]; simpl; [reflexivity|].
    destruct (Z.eqb (cv_thread_id c) thread_id) eqn:E1;
      destruct (Z.eqb (cv_thread_id c) t) eqn:E2; simpl; rewrite ?IH, ?E2;
      try reflexivity.
    apply Z.eqb_eq in E1; apply Z.eqb_eq in E2; congruence.
Qed.

Lemma delete_thread_cascades_witness :
  let d := snd (add_messages_to_thread Samples.len_tokens 3 Samples.db_one 1
                  (Some (mk_message "hi" None None)) None) in
  delete_thread Samples.db_one 2 = (false, Samples.db_one) /\
  thread_rows (snd (delete_thread d 1)) 1 = [].
Proof.
  intros d.
  destruct (delete_thread_cascades Samples.db_one 2) as [Hm _].
  assert (H : threads d !! 1
              = Some {| th_user_id := 7; th_title := "New chat";
                        th_updated_at := 3 |}) by reflexivity.
  split; [apply Hm; reflexivity|].
  exact (proj1 (proj2 (proj2 (proj2 (delete_thread_cascades d 1) _ H)))).
Defined.

(** [get_user_threads] lists exactly the threads whose owner is the given
    user: no other user's thread ever appears in it. *)
Theorem user_threads_exact (d : db) (user_id thread_id : Z) (th : thread_row) :
  In (thread_id, th) (get_user_threads d user_id)
  <-> threads d !! thread_id = Some th /\ th_user_id th = user_id.
Proof.
  unfold get_user_threads; rewrite List.filter_In; simpl.
  rewrite <- list_elem_of_In, elem_of_map_to_list, Z.eqb_eq; tauto.
Qed.

(** The delete route, when the request budget admits the call: a missing
    thread gives 404 and a thread of another user gives 403, both with
    the store unchanged; the owner's call deletes the thread as
    [delete_thread] does and answers with its title.  The request is
    counted in every case. *)
Theorem delete_route_checks_owner (R : Z) (now : Q) (us : usage) (d : db)
    (thread_id current_user : Z) :
  requests_used (check_and_reset_counters now us) < R ->
  let res := delete_thread_by_id R now us d thread_id current_user in
  snd (fst res) = snd (track_request R now us) /\
  (threads d !! thread_id = None ->
     fst (fst res) = HttpError 404 (String.append "Thread with ID "
                       (String.append (py_str_int thread_id) " not found")) /\
     snd res = d) /\
  (forall th : thread_row, threads d !! thread_id = Some th ->
     th_user_id th <> current_user ->
     fst (fst res) = HttpError 403 "You don't have permission to delete this thread" /\
     snd res = d) /\
  (forall th : thread_row, threads d !! thread_id = Some th ->
     th_user_id th = current_user ->
     fst (fst res) = JsonMessage (String.append "Thread " (String.append quote1
                       (String.append (th_title th)
                         (String.append quote1 " deleted successfully")))) /\
     snd res = snd (delete_thread d thread_id)).
Proof.
  intros Hr res; subst res; unfold delete_thread_by_id, track_request.
  replace (R <=? requests_used (check_and_reset_counters now us)) with false
    by (symmetry; apply Z.leb_gt; exact Hr).
  unfold get_thread.
  split.
  { destruct (threads d !! thread_id) as [th0|]; [|reflexivity].
    destruct (negb (Z.eqb (th_user_id th0) current_user)); [reflexivity|].
    destruct (delete_thread d thread_id) as [[|] d0]; reflexivity. }
  split; [|split].
  - intros H; rewrite H; split; reflexivity.
  - intros th H Hne; rewrite H.
    replace (Z.eqb (th_user_id th) current_user) with false
      by (symmetry; apply Z.eqb_neq; exact Hne).
    split; reflexivity.
  - intros th H Heq; rewrite H, Heq, Z.eqb_refl; simpl.
    unfold delete_thread; rewrite H; split; reflexivity.
Qed.

Lemma delete_route_checks_owner_witness :
  requests_used (check_and_reset_counters 3 Samples.fresh) < 60 /\
  fst (fst (delete_thread_by_id 60 3 Samples.fresh Samples.db_one 1 8))
    = HttpError 403 "You don't have permission to delete this thread".
Proof.
  assert (Hr : requests_used (check_and_reset_counters 3 Samples.fresh) < 60)
    by (vm_compute; reflexivity).
  split; [exact Hr|].
  destruct (delete_route_checks_owner 60 3 Samples.fresh Samples.db_one 1 8 Hr)
    as [_ [_ [H403 _]]].
  apply (H403 Samples.thread_1); [reflexivity|discriminate].
Defined.

(** When the request budget is spent, the delete route answers with a
    500 whose detail is the [RateLimitError] message, not with that
    error's own status 429, and the store is unchanged. *)
Theorem delete_route_rate_limit_is_500 (R : Z) (now : Q) (us : usage) (d : db)
    (thread_id current_user : Z) :
  R <= requests_used (check_and_reset_counters now us) ->
  delete_thread_by_id R now us d thread_id current_user
    = (HttpError 500 (exc_str (RateLimitError "Request" R)),
       check_and_reset_counters now us, d) /\
  exc_status_code (RateLimitError "Request" R) = 429.
Proof.
  intros Hr; unfold delete_thread_by_id, track_request.
  apply Z.leb_le in Hr; rewrite Hr; split; reflexivity.
Qed.

Lemma delete_route_rate_limit_is_500_witness :
  60 <= requests_used (check_and_reset_counters 3 (mk_usage 0 0 60)) /\
  fst (fst (delete_thread_by_id 60 3 (mk_usage 0 0 60) Samples.db_one 1 7))
    = HttpError 500 "Request rate limit exceeded: 60 per minute".
Proof.
  assert (Hr : 60 <= requests_used (check_and_reset_counters 3 (mk_usage 0 0 60)))
    by (vm_compute; discriminate).
  split; [exact Hr|].
  rewrite (proj1 (delete_route_rate_limit_is_500 60 3 (mk_usage 0 0 60)
                    Samples.db_one 1 7 Hr)).
  vm_compute; reflexivity.
Defined.

(** The clear-messages route: when the request budget is spent the
    [RateLimitError] escapes the route (no [try] there) and nothing is
    written; otherwise a missing thread gives 404 and another user's
    thread 403, with the store unchanged, and the owner's call empties
    the thread's messages while keeping the thread and every other
    thread's messages. *)
Theorem clear_route_behaviour (R : Z) (now : Q) (us : usage) (d : db)
    (thread_id current_user : Z) :
  let res := clear_thread_messages R now us d thread_id current_user in
  (R <= requests_used (check_and_reset_counters now us) ->
     fst (fst res) = Raised (RateLimitError "Request" R) /\ snd res = d) /\
  (requests_used (check_and_reset_counters now us) < R ->
     (threads d !! thread_id = None ->
        exists detail, fst (fst res) = Ok (HttpError 404 detail) /\ snd res = d) /\
     (forall th : thread_row, threads d !! thread_id = Some th ->
        th_user_id th <> current_user ->
        exists detail, fst (fst res) = Ok (HttpError 403 detail) /\ snd res = d) /\
     (forall th : thread_row, threads d !! thread_id = Some th ->
        th_user_id th = current_user ->
        fst (fst res) = Ok (JsonMessage "Messages cleared successfully") /\
        get_thread (snd res) thread_id = Some th /\
        thread_rows (snd res) thread_id = [] /\
        (forall t, t <> thread_id -> thread_rows (snd res) t = thread_rows d t))).
Proof.
  intros res; subst res; unfold clear_thread_messages, track_request.
  split.
  - intros Hr; apply Z.leb_le in Hr; rewrite Hr; split; reflexivity.
  - intros Hr; apply Z.leb_gt in Hr; rewrite Hr; unfold get_thread.
    split; [intros H; rewrite H; eexists; split; reflexivity|split].
    + intros th H Hne; rewrite H.
      replace (Z.eqb (th_user_id th) current_user) with false
        by (symmetry; apply Z.eqb_neq; exact Hne).
      eexists; split; reflexivity.
    + intros th H Heq; rewrite H, Heq, Z.eqb_refl; simpl.
      split; [reflexivity|split; [exact H|split]].
      * unfold thread_rows; simpl.
        induction (conversations d) as [|c l IH]; simpl; [reflexivity|].
        destruct (Z.eqb (cv_thread_id c) thread_id) eqn:E; simpl; rewrite ?E;
          exact IH.
      * intros t Ht; unfold thread_rows; simpl.
        induction (conversations d) as [|c l IH]; simpl; [reflexivity|].
        destruct (Z.eqb (cv_thread_id c) thread_id) eqn:E1;
          destruct (Z.eqb (cv_thread_id c) t) eqn:E2; simpl; rewrite ?IH, ?E2;
          try reflexivity.
        apply Z.eqb_eq in E1; apply Z.eqb_eq in E2; congruence.
Qed.

Lemma clear_route_behaviour_witness :
  let d := snd (add_messages_to_thread Samples.len_tokens 3 Samples.db_one 1
                  (Some (mk_message "hi" None None)) None) in
  requests_used (check_and_reset_counters 4 Samples.fresh) < 60 /\
  threads d !! 1 = Some {| th_user_id := 7; th_title := "New chat";
                           th_updated_at := 3 |} /\
  thread_rows (snd (clear_thread_messages 60 4 Samples.fresh d 1 7)) 1 = [].
Proof.
  intros d.
  assert (Hr : requests_used (check_and_reset_counters 4 Samples.fresh) < 60)
    by (vm_compute; reflexivity).
  assert (H : threads d !! 1 = Some {| th_user_id := 7; th_title := "New chat";
                                       th_updated_at := 3 |}) by reflexivity.
  split; [exact Hr|split; [exact H|]].
  destruct (clear_route_behaviour 60 4 Samples.fresh d 1 7) as [_ Hok].
  destruct (Hok Hr) as [_ [_ Hown]].
  exact (proj1 (proj2 (proj2 (Hown _ H eq_refl)))).
Defined.

(** * More properties of the throttle *)
Import Burst.

(** [requests_used <= REQUESTS_PER_MINUTE] holds along every call
    sequence when the limit is not negative. *)
Theorem run_requests_within_limit (R T : Z) (calls : list (Q * op)) (s : usage) :
  0 <= R -> requests_used s <= R -> requests_used (run R T calls s) <= R.
Proof.
  intros HR; revert s; induction calls as [|[now o] calls IH]; intros s Hs;
    simpl; [exact Hs|apply IH].
  assert (H1 : requests_used (check_and_reset_counters now s) <= R).
  { unfold check_and_reset_counters;
      destruct (negb (Qle_bool (now - last_reset s) 60)); simpl; lia. }
  destruct o; simpl;
    unfold track_request, check_token_rate_limit, get_rate_limit_status.
  - destruct (R <=? requests_used (check_and_reset_counters now s)) eqn:E;
      simpl; [lia|]. apply Z.leb_gt in E; lia.
  - destruct (T <? tokens_used (check_and_reset_counters now s) + n); simpl; lia.
  - simpl; lia.
Qed.

Lemma run_requests_within_limit_witness :
  (0 <= 2 /\ requests_used (mk_usage 0 0 0) <= 2) /\
  requests_used (run 2 100 [(0%Q, OpRequest); (1%Q, OpRequest); (2%Q, OpRequest)]
                   (mk_usage 0 0 0)) <= 2.
Proof.
  split; [simpl; lia|].
  apply run_requests_within_limit; simpl; lia.
Defined.

Lemma run_tokens_within_limit_witness :
  (0 <= 10 /\ tokens_used (mk_usage 0 0 0) <= 10) /\
  tokens_used (run 60 10 [(0%Q, OpTokens 6); (1%Q, OpTokens 6)]
                 (mk_usage 0 0 0)) <= 10.
Proof.
  split; [simpl; lia|].
  apply run_tokens_within_limit; simpl; lia.
Defined.

(** Within one window, a burst of one-token checks starting with [u]
    tokens used admits the first [min(n, limit - u)] calls and rejects
    every later one. *)
Lemma token_burst_gen (T : Z) (t0 : Q) (times : list Q) (u r : Z) :
  0 <= u <= T ->
  Forall (fun t => (t - t0 <= 60)%Q) times ->
  fst (token_burst T times 1 (mk_usage t0 u r))
  = repeat true (Nat.min (length times) (Z.to_nat (T - u))) ++
    repeat false (length times - Nat.min (length times) (Z.to_nat (T - u))).
Proof.
  revert u; induction times as [|t ts IH]; intros u Hu Hts; [reflexivity|].
  inversion Hts as [|? ? Ht Hts']; subst.
  simpl token_burst; unfold check_token_rate_limit.
  rewrite (reset_idle t (mk_usage t0 u r)) by exact Ht; simpl.
  destruct (T <? u + 1) eqn:E.
  - apply Z.ltb_lt in E.
    assert (Hz : Z.to_nat (T - u) = 0%nat) by lia.
    rewrite Hz in *.
    assert (Hall : fst (token_burst T ts 1 (mk_usage t0 u r))
                   = repeat false (length ts)).
    { rewrite (IH u Hu Hts'), Hz, Nat.min_0_r, Nat.sub_0_r; reflexivity. }
    destruct (token_burst T ts 1 (mk_usage t0 u r)) as [bs s2]; simpl in *.
    rewrite Hall; simpl; rewrite ?Nat.min_0_r, ?Nat.sub_0_r; reflexivity.
  - apply Z.ltb_ge in E.
    pose proof (IH (u + 1) ltac:(lia) Hts') as Hr.
    destruct (token_burst T ts 1 (mk_usage t0 (u + 1) r)) as [bs s2]; simpl in *.
    rewrite Hr.
    replace (Z.to_nat (T - u)) with (S (Z.to_nat (T - (u + 1)))) by lia.
    reflexivity.
Qed.

(** A burst of [n] one-token checks within 60 seconds of a fresh window
    with token limit [L >= 0] returns [True] exactly for the first
    [min(n, L)] calls and [False] for the others. *)
Theorem token_burst_admits_prefix (T : Z) (t0 : Q) (times : list Q) (r : Z) :
  0 <= T ->
  Forall (fun t => (t - t0 <= 60)%Q) times ->
  fst (token_burst T times 1 (mk_usage t0 0 r))
  = repeat true (Nat.min (length times) (Z.to_nat T)) ++
    repeat false (length times - Nat.min (length times) (Z.to_nat T)).
Proof.
  intros HT Hts; rewrite (token_burst_gen T t0 times 0 r) by (auto; lia).
  rewrite Z.sub_0_r; reflexivity.
Qed.

Lemma token_burst_admits_prefix_witness :
  (0 <= 3 /\ Forall (fun t => (t - 0 <= 60)%Q) [0%Q; 1%Q; 2%Q; 3%Q]) /\
  fst (token_burst 3 [0%Q; 1%Q; 2%Q; 3%Q] 1 (mk_usage 0 0 0))
  = [true; true; true; false].
Proof.
  assert (H : 0 <= 3 /\ Forall (fun t => (t - 0 <= 60)%Q) [0%Q; 1%Q; 2%Q; 3%Q]).
  { split; [lia|]. repeat constructor; vm_compute; discriminate. }
  split; [exact H|].
  exact (token_burst_admits_prefix 3 0 _ 0 (proj1 H) (proj2 H)).
Defined.

Lemma request_burst_gen (R : Z) (t0 : Q) (times : list Q) (u r : Z) :
  0 <= r <= R ->
  Forall (fun t => (t - t0 <= 60)%Q) times ->
  fst (request_burst R times (mk_usage t0 u r))
  = repeat true (Nat.min (length times) (Z.to_nat (R - r))) ++
    repeat false (length times - Nat.min (length times) (Z.to_nat (R - r))).
Proof.
  revert r; induction times as [|t ts IH]; intros r Hr Hts; [reflexivity|].
  inversion Hts as [|? ? Ht Hts']; subst.
  simpl request_burst; unfold track_request.
  rewrite (reset_idle t (mk_usage t0 u r)) by exact Ht; simpl.
  destruct (R <=? r) eqn:E.
  - apply Z.leb_le in E.
    assert (Hz : Z.to_nat (R - r) = 0%nat) by lia.
    rewrite Hz in *.
    assert (Hall : fst (request_burst R ts (mk_usage t0 u r))
                   = repeat false (length ts)).
    { rewrite (IH r Hr Hts'), Hz, Nat.min_0_r, Nat.sub_0_r; reflexivity. }
    destruct (request_burst R ts (mk_usage t0 u r)) as [bs s2]; simpl in *.
    rewrite Hall; simpl; rewrite ?Nat.min_0_r, ?Nat.sub_0_r; reflexivity.
  - apply Z.leb_gt in E.
    pose proof (IH (r + 1) ltac:(lia) Hts') as Hr'.
    destruct (request_burst R ts (mk_usage t0 u (r + 1))) as [bs s2]; simpl in *.
    rewrite Hr'.
    replace (Z.to_nat (R - r)) with (S (Z.to_nat (R - (r + 1)))) by lia.
    reflexivity.
Qed.

(** A burst of [n] calls to [track_request] within 60 seconds of a fresh
    window with request limit [L >= 0] lets the first [min(n, L)] calls
    through and raises [RateLimitError] on every later one. *)
Theorem request_burst_admits_prefix (R : Z) (t0 : Q) (times : list Q) (u : Z) :
  0 <= R ->
  Forall (fun t => (t - t0 <= 60)%Q) times ->
  fst (request_burst R times (mk_usage t0 u 0))
  = repeat true (Nat.min (length times) (Z.to_nat R)) ++
    repeat false (length times - Nat.min (length times) (Z.to_nat R)).
Proof.
  intros HR Hts; rewrite (request_burst_gen R t0 times u 0) by (auto; lia).
  rewrite Z.sub_0_r; reflexivity.
Qed.

Lemma request_burst_admits_prefix_witness :
  (0 <= 2 /\ Forall (fun t => (t - 0 <= 60)%Q) [0%Q; 30%Q; 60%Q]) /\
  fst (request_burst 2 [0%Q; 30%Q; 60%Q] (mk_usage 0 0 0))
  = [true; true; false].
Proof.
  assert (H : 0 <= 2 /\ Forall (fun t => (t - 0 <= 60)%Q) [0%Q; 30%Q; 60%Q]).
  { split; [lia|]. repeat constructor; vm_compute; discriminate. }
  split; [exact H|].
  exact (request_burst_admits_prefix 2 0 _ 0 (proj1 H) (proj2 H)).
Defined.

(** A second status read in the same window leaves the state as the
    first read left it and reports what the first read would have
    reported with the same clock for [reset_after_seconds]. *)
Theorem status_read_repeatable (R T : Z) (now1 now2 now3 now4 : Q) (s : usage) :
  (now3 - last_reset (snd (get_rate_limit_status R T now1 now2 s)) <= 60)%Q ->
  let s1 := snd (get_rate_limit_status R T now1 now2 s) in
  snd (get_rate_limit_status R T now3 now4 s1) = s1 /\
  fst (get_rate_limit_status R T now3 now4 s1)
  = fst (get_rate_limit_status R T now1 now4 s).
Proof.
  intros H; cbv zeta.
  unfold get_rate_limit_status in *; cbn [fst snd] in *.
  rewrite (reset_idle now3 _ H); split; reflexivity.
Qed.

Lemma status_read_repeatable_witness :
  (120 - last_reset (snd (get_rate_limit_status 60 100 100 101
                            (mk_usage 0 5 3))) <= 60)%Q /\
  fst (get_rate_limit_status 60 100 120 130
         (snd (get_rate_limit_status 60 100 100 101 (mk_usage 0 5 3))))
  = fst (get_rate_limit_status 60 100 100 130 (mk_usage 0 5 3)).
Proof.
  assert (H : (120 - last_reset (snd (get_rate_limit_status 60 100 100 101
                  (mk_usage 0 5 3))) <= 60)%Q) by (vm_compute; discriminate).
  split; [exact H|].
  exact (proj2 (status_read_repeatable 60 100 100 101 120 130 _ H)).
Defined.

Import Chat.

Lemma loop_tokens_bound (T : Z) (count_tokens : string -> Z) (thread_id : Z)
    (model : string) (u : chunk_stream) (acc : string) (us : usage) (d : db) :
  0 <= T -> tokens_used us <= T ->
  tokens_used (usage_after (stream_loop T count_tokens thread_id model u acc us d))
  <= T.
Proof.
  intros HT; revert acc us; induction u as [now|msg|now text rest IH];
    intros acc us Hus; simpl; auto.
  destruct text as [t|]; [|apply IH; exact Hus].
  destruct (String.eqb t ""); [apply IH; exact Hus|].
  assert (H1 : tokens_used (check_and_reset_counters now us) <= T).
  { unfold check_and_reset_counters;
      destruct (negb (Qle_bool (now - last_reset us) 60)); simpl; lia. }
  unfold check_token_rate_limit.
  destruct (T <? tokens_used (check_and_reset_counters now us) + count_tokens t)
    eqn:E; simpl; [exact H1|].
  apply IH; simpl; apply Z.ltb_ge in E; lia.
Qed.

(** Whatever the upstream stream does, [stream_response] never leaves
    [tokens_used] above the token limit if it started within it. *)
Theorem stream_tokens_within_limit (T : Z) (count_tokens : string -> Z)
    (thread_id : Z) (model : string) (u : chunk_stream) (us : usage) (d : db) :
  0 <= T -> tokens_used us <= T ->
  tokens_used (usage_after (stream_response T count_tokens thread_id model u us d))
  <= T.
Proof. apply loop_tokens_bound. Qed.

Lemma stream_tokens_within_limit_witness :
  (0 <= 5 /\ tokens_used fresh <= 5) /\
  tokens_used (usage_after (stream_response 5 len_tokens 1 "gemini-2.0-flash"
    (SChunk 0 (Some "abc"%string) (SChunk 1 (Some "defg"%string) (SEnd 2)))
    fresh db_one)) <= 5.
Proof.
  split; [simpl; lia|].
  apply stream_tokens_within_limit; simpl; lia.
Defined.

Lemma admitted_prefix_charge (T : Z) (count_tokens : string -> Z)
    (pre : list (Q * option string)) (us us1 : usage) (fwd : list string) :
  Forall (fun p => (fst p - last_reset us <= 60)%Q) pre ->
  admitted_prefix T count_tokens pre us = Some (fwd, us1) ->
  us1 = mk_usage (last_reset us)
          (tokens_used us + fold_right Z.add 0 (map count_tokens fwd))
          (requests_used us).
Proof.
  revert us fwd; induction pre as [|[now [t|]] p IH]; intros us fwd Hw H;
    simpl in H.
  - injection H as <- <-; destruct us; simpl; rewrite Z.add_0_r; reflexivity.
  - inversion Hw as [|? ? Hn Hw']; subst; simpl in Hn.
    destruct (String.eqb t ""); [exact (IH us fwd Hw' H)|].
    unfold check_token_rate_limit in H; rewrite (reset_idle now us Hn) in H.
    destruct (T <? tokens_used us + count_tokens t); [discriminate|].
    destruct (admitted_prefix T count_tokens p
                (mk_usage (last_reset us) (tokens_used us + count_tokens t)
                   (requests_used us))) as [[f u1]|] eqn:Hp; [|discriminate].
    injection H as <- <-.
    rewrite (IH (mk_usage (last_reset us) (tokens_used us + count_tokens t)
                   (requests_used us)) f Hw' Hp); simpl; f_equal; lia.
  - inversion Hw as [|? ? Hn Hw']; subst; exact (IH us fwd Hw' H).
Qed.

(** Within one rate window, a stream that completes charges the token
    budget with exactly the token counts of the fragments it forwarded,
    and nothing for the request counter. *)
Theorem stream_charges_forwarded_tokens (T : Z) (count_tokens : string -> Z)
    (thread_id : Z) (model : string) (pre : list (Q * option string))
    (now : Q) (us us1 : usage) (d : db) (fwd : list string) :
  Forall (fun p => (fst p - last_reset us <= 60)%Q) pre ->
  admitted_prefix T count_tokens pre us = Some (fwd, us1) ->
  usage_after (stream_response T count_tokens thread_id model
                 (prepend pre (SEnd now)) us d)
  = mk_usage (last_reset us)
      (tokens_used us + fold_right Z.add 0 (map count_tokens fwd))
      (requests_used us).
Proof.
  intros Hw Hp; unfold stream_response.
  rewrite (loop_prepend T count_tokens thread_id model pre (SEnd now)
             EmptyString us us1 d fwd Hp); simpl.
  exact (admitted_prefix_charge T count_tokens pre us us1 fwd Hw Hp).
Qed.

Lemma stream_charges_forwarded_tokens_witness :
  (Forall (fun p => (fst p - last_reset fresh <= 60)%Q)
     [(0%Q, Some "Hel"%string); (1%Q, None); (2%Q, Some "lo"%string)] /\
   admitted_prefix 60000 len_tokens
     [(0%Q, Some "Hel"%string); (1%Q, None); (2%Q, Some "lo"%string)] fresh
   = Some (["Hel"%string; "lo"%string], mk_usage 0 5 0)) /\
  usage_after (stream_response 60000 len_tokens 1 "gemini-2.0-flash"
    (prepend [(0%Q, Some "Hel"%string); (1%Q, None); (2%Q, Some "lo"%string)]
       (SEnd 3)) fresh db_one)
  = mk_usage 0 5 0.
Proof.
  assert (Hw : Forall (fun p => (fst p - last_reset fresh <= 60)%Q)
     [(0%Q, Some "Hel"%string); (1%Q, None); (2%Q, Some "lo"%string)]).
  { repeat constructor; vm_compute; discriminate. }
  assert (Hp : admitted_prefix 60000 len_tokens
     [(0%Q, Some "Hel"%string); (1%Q, None); (2%Q, Some "lo"%string)] fresh
   = Some (["Hel"%string; "lo"%string], mk_usage 0 5 0))
    by (vm_compute; reflexivity).
  split; [split; [exact Hw|exact Hp]|].
  exact (stream_charges_forwarded_tokens 60000 len_tokens 1 "gemini-2.0-flash"
           _ 3 fresh _ db_one _ Hw Hp).
Defined.

(** Within one rate window, the fragment whose token check fails is not
    charged: the stream stops with the notice and the sentinel, and the
    token budget holds exactly the forwarded fragments' counts. *)
Theorem rejected_fragment_not_charged (T : Z) (count_tokens : string -> Z)
    (thread_id : Z) (model : string) (pre : list (Q * option string))
    (now : Q) (t : string) (rest : chunk_stream) (us us1 : usage) (d : db)
    (fwd : list string) :
  Forall (fun p => (fst p - last_reset us <= 60)%Q) pre ->
  admitted_prefix T count_tokens pre us = Some (fwd, us1) ->
  (now - last_reset us <= 60)%Q ->
  t <> EmptyString ->
  T < tokens_used us + fold_right Z.add 0 (map count_tokens fwd) + count_tokens t ->
  let r := stream_response T count_tokens thread_id model
             (prepend pre (SChunk now (Some t) rest)) us d in
  events r = map SseContent fwd ++ [SseContent truncation_notice; SseDone] /\
  usage_after r
  = mk_usage (last_reset us)
      (tokens_used us + fold_right Z.add 0 (map count_tokens fwd))
      (requests_used us).
Proof.
  intros Hw Hp Hn Ht Hover; cbv zeta; unfold stream_response.
  rewrite (loop_prepend T count_tokens thread_id model pre _
             EmptyString us us1 d fwd Hp).
  rewrite (admitted_prefix_charge T count_tokens pre us us1 fwd Hw Hp).
  cbn [stream_loop events usage_after].
  apply String.eqb_neq in Ht; rewrite Ht.
  unfold check_token_rate_limit.
  rewrite reset_idle by exact Hn; cbn [tokens_used].
  apply Z.ltb_lt in Hover; rewrite Hover; simpl.
  split; reflexivity.
Qed.

Lemma rejected_fragment_not_charged_witness :
  (Forall (fun p => (fst p - last_reset fresh <= 60)%Q)
     [(0%Q, Some "Hel"%string)] /\
   admitted_prefix 5 len_tokens [(0%Q, Some "Hel"%string)] fresh
   = Some (["Hel"%string], mk_usage 0 3 0) /\
   (1 - last_reset fresh <= 60)%Q /\
   "lo!"%string <> EmptyString /\
   5 < tokens_used fresh + fold_right Z.add 0 (map len_tokens ["Hel"%string])
       + len_tokens "lo!") /\
  usage_after (stream_response 5 len_tokens 1 "gemini-2.0-flash"
    (prepend [(0%Q, Some "Hel"%string)] (SChunk 1 (Some "lo!"%string) (SEnd 2)))
    fresh db_one)
  = mk_usage 0 3 0.
Proof.
  assert (Hw : Forall (fun p => (fst p - last_reset fresh <= 60)%Q)
     [(0%Q, Some "Hel"%string)]) by (repeat constructor; vm_compute; discriminate).
  assert (Hp : admitted_prefix 5 len_tokens [(0%Q, Some "Hel"%string)] fresh
   = Some (["Hel"%string], mk_usage 0 3 0)) by (vm_compute; reflexivity).
  assert (Hn : (1 - last_reset fresh <= 60)%Q) by (vm_compute; discriminate).
  assert (Ht : "lo!"%string <> EmptyString) by discriminate.
  assert (Ho : 5 < tokens_used fresh + fold_right Z.add 0 (map len_tokens ["Hel"%string])
       + len_tokens "lo!") by (vm_compute; reflexivity).
  split; [repeat split; assumption|].
  exact (proj2 (rejected_fragment_not_charged 5 len_tokens 1 "gemini-2.0-flash"
           _ 1 _ (SEnd 2) fresh _ db_one _ Hw Hp Hn Ht Ho)).
Defined.

Lemma completed_persists_once_witness :
  (admitted_prefix 60000 len_tokens [(0%Q, Some "Hel"%string)] fresh
   = Some (["Hel"%string], mk_usage 0 3 0) /\
   threads db_one !! 1 = Some thread_1) /\
  conversations (db_after (stream_response 60000 len_tokens 1 "gemini-2.0-flash"
    (prepend [(0%Q, Some "Hel"%string)] (SEnd 1)) fresh db_one))
  = [{| cv_thread_id := 1; cv_role := "model";
        cv_content := concat_fragments ["Hel"%string];
        cv_model := Some "gemini-2.0-flash"%string;
        cv_token_count := len_tokens (concat_fragments ["Hel"%string]) |}].
Proof.
  assert (Hp : admitted_prefix 60000 len_tokens [(0%Q, Some "Hel"%string)] fresh
   = Some (["Hel"%string], mk_usage 0 3 0)) by (vm_compute; reflexivity).
  assert (Hth : threads db_one !! 1 = Some thread_1) by reflexivity.
  split; [split; [exact Hp|exact Hth]|].
  exact (proj2 (proj2 (completed_persists_once 60000 len_tokens 1
           "gemini-2.0-flash" _ 1 fresh _ db_one _ thread_1 Hp Hth))).
Defined.

Import Route.

Lemma route_user_turn_first_witness :
  threads db_one !! 1 = Some thread_1 /\
  fst (chat_with_thread len_tokens 5 db_one 1 "gemini-2.0-flash" "hi"
         (history_of db_one 1) (Ok tt))
  = StreamingResponse "gemini-2.0-flash" (get_thread_messages_optimized db_one 1) 1.
Proof.
  assert (Hth : threads db_one !! 1 = Some thread_1) by reflexivity.
  split; [exact Hth|].
  exact (proj1 (route_user_turn_first len_tokens 5 db_one 1
                  "gemini-2.0-flash" "hi" thread_1 Hth)).
Defined.

(** When creating the chat session raises, the route answers with the
    model-role error dict carrying [str(e)], yet the user turn has
    already been committed to the existing thread, whatever the history
    query did. *)
Theorem chat_setup_failure_keeps_user_turn (count_tokens : string -> Z)
    (now : Q) (d : db) (thread_id : Z) (model question m : string)
    (history_query : outcome (list hist_entry)) (th : thread_row) :
  threads d !! thread_id = Some th ->
  let res := chat_with_thread count_tokens now d thread_id model question
               history_query (Raised (OtherExc m)) in
  fst res = ErrorDict "model" (String.append "⚠️ Error processing request: " m) /\
  conversations (snd res)
    = conversations d ++
      [{| cv_thread_id := thread_id; cv_role := "user";
          cv_content := question; cv_model := None;
          cv_token_count := count_tokens question |}].
Proof.
  intros Hth; unfold chat_with_thread, add_messages_to_thread.
  rewrite Hth; cbn; split; [reflexivity|].
  destruct (Z.eqb (count_tokens question) 0); reflexivity.
Qed.

Lemma chat_setup_failure_keeps_user_turn_witness :
  threads db_one !! 1 = Some thread_1 /\
  fst (chat_with_thread len_tokens 5 db_one 1 "gemini-2.0-flash" "hi"
         (Raised (OtherExc "boom")) (Raised (OtherExc "invalid API key")))
  = ErrorDict "model"
      (String.append "⚠️ Error processing request: " "invalid API key").
Proof.
  assert (Hth : threads db_one !! 1 = Some thread_1) by reflexivity.
  split; [exact Hth|].
  exact (proj1 (chat_setup_failure_keeps_user_turn len_tokens 5 db_one 1
                  "gemini-2.0-flash" "hi" "invalid API key"
                  (Raised (OtherExc "boom")) thread_1 Hth)).
Defined.
